(** * Theme preference resolution of the portfolio site

    Shallow embedding of the theme machinery of the site:
    - the pre-hydration inline script of [app/layout.tsx] ([resolver]);
    - the default-capable controller [ThemeProvider] (src/unnamed/part_001),
      the one mounted by [app/layout.tsx] ([Module ThemeProvider]);
    - the older two-state controller (src/unnamed/part_002), mounted by the
      script-less layout of src/unnamed/part_000 ([Module ThemeProviderTwoState]).

    Browser values are modelled as the code observes them: JSON values as
    produced by [JSON.parse], the storage slot under [LS_KEY], the cookie jar
    behind [document.cookie], and the class list of the document root. *)

From Stdlib Require Import String Ascii List Bool ZArith Lia.
Import ListNotations.
Open Scope string_scope.
Set Warnings "-register-all".

(** ** Exceptions, with a small error monad for [try]/[catch] *)

Inductive exn : Type :=
| SyntaxError
| TypeError
| SecurityError
| URIError
| InvalidCharacterError.

Inductive result (A : Type) : Type :=
| Ok (a : A)
| Throw (e : exn).
Arguments Ok {A} a.
Arguments Throw {A} e.

Definition bind {A B : Type} (m : result A) (k : A -> result B) : result B :=
  match m with
  | Ok a => k a
  | Throw e => Throw e
  end.

Notation "x <- m ;; k" := (bind m (fun x => k))
  (at level 61, m at next level, right associativity).

(** [try { m } catch (e) { h e }] *)
Definition try_catch {A : Type} (m : result A) (h : exn -> A) : A :=
  match m with
  | Ok a => a
  | Throw e => h e
  end.

(** ** JavaScript values *)

(** Values that [JSON.parse] can return.  A number [JNum r] is represented
    by its [Number::toString] text [r] (["42"], ["-0.5"], ["1e+21"]), which is
    all the code observes of it: its truthiness, its string conversion and
    its serialization.  [JSON.parse] yields finite numbers and, for a literal
    out of range such as [1e400], ["Infinity"] or ["-Infinity"]. *)
Inductive json : Type :=
| JNull
| JBool (b : bool)
| JNum (r : string)
| JStr (s : string)
| JArr (xs : list json)
| JObj (fields : list (string * json)).

(** A property read [v.k]; [None] is [undefined].  A parsed object's
    duplicated keys stay in the list, and every read takes the last
    occurrence, which is the value [JSON.parse] keeps; primitives and arrays
    have no [mode], [variant] or [toString] own property. *)
Fixpoint assoc_last (k : string) (fs : list (string * json)) : option json :=
  match fs with
  | [] => None
  | (k', v) :: rest =>
      match assoc_last k rest with
      | Some w => Some w
      | None => if String.eqb k k' then Some v else None
      end
  end.

Definition prop (v : json) (k : string) : option json :=
  match v with
  | JObj fs => assoc_last k fs
  | _ => None
  end.

(** JavaScript truthiness: [0] and [-0] print as ["0"]. *)
Definition json_truthy (v : json) : bool :=
  match v with
  | JNull => false
  | JBool b => b
  | JNum r => negb (String.eqb r "0" || String.eqb r "NaN")
  | JStr s => negb (String.eqb s "")
  | JArr _ => true
  | JObj _ => true
  end.

Definition truthy (u : option json) : bool :=
  match u with
  | None => false
  | Some v => json_truthy v
  end.

(** Strict equality with a string literal: [u === lit]. *)
Definition is_lit (u : option json) (lit : string) : bool :=
  match u with
  | Some (JStr s) => String.eqb s lit
  | _ => false
  end.

Fixpoint join_comma (xs : list string) : string :=
  match xs with
  | [] => ""
  | [x] => x
  | x :: rest => x ++ "," ++ join_comma rest
  end.

(** [ToString(v)], as used by [+] and template literals.  For an object,
    [ToPrimitive] calls [toString] (or first [valueOf], which returns the
    object itself): an own [toString] key of a parsed object holds a JSON
    value, which is not callable, so the conversion throws a TypeError;
    otherwise the inherited method gives ["[object Object]"].  An array
    joins its elements with commas, [null] as the empty string. *)
Fixpoint js_string (v : json) : result string :=
  match v with
  | JNull => Ok "null"
  | JBool true => Ok "true"
  | JBool false => Ok "false"
  | JNum r => Ok r
  | JStr s => Ok s
  | JArr xs =>
      parts <- (fix elems (l : list json) : result (list string) :=
                  match l with
                  | [] => Ok []
                  | JNull :: r => rest <- elems r ;; Ok ("" :: rest)
                  | x :: r => hd <- js_string x ;; rest <- elems r ;; Ok (hd :: rest)
                  end) xs ;;
      Ok (join_comma parts)
  | JObj fs =>
      if existsb (fun kv => String.eqb (fst kv) "toString") fs then Throw TypeError
      else Ok "[object Object]"
  end.

Definition js_string_u (u : option json) : result string :=
  match u with
  | None => Ok "undefined"
  | Some v => js_string v
  end.

(** Numbers that [JSON.stringify] cannot write. *)
Definition num_finite (r : string) : bool :=
  negb (String.eqb r "Infinity" || String.eqb r "-Infinity" || String.eqb r "NaN").

(** What [JSON.parse(JSON.stringify(v))] gives back: non-finite numbers
    become [null]. *)
Fixpoint json_norm (v : json) : json :=
  match v with
  | JNum r => if num_finite r then JNum r else JNull
  | JArr xs =>
      JArr ((fix elems (l : list json) : list json :=
               match l with
               | [] => []
               | x :: r => json_norm x :: elems r
               end) xs)
  | JObj fs =>
      JObj ((fix fields (l : list (string * json)) : list (string * json) :=
               match l with
               | [] => []
               | (k, x) :: r => (k, json_norm x) :: fields r
               end) fs)
  | _ => v
  end.

(** ** Browser built-ins *)

(** A stored string, represented by what [JSON.parse] makes of it:
    [TJson j] is a text that [JSON.parse] reads as [j] (the text
    [JSON.stringify(j)] when [j] holds no non-finite number, or one such as
    ['{"mode":1e400}']); [TOther s] is a string [s] that [JSON.parse]
    rejects, the empty string included. *)
Inductive text : Type :=
| TJson (j : json)
| TOther (s : string).

Definition text_truthy (t : text) : bool :=
  match t with
  | TJson _ => true
  | TOther s => negb (String.eqb s "")
  end.

Definition JSON_parse (t : text) : result json :=
  match t with
  | TJson j => Ok j
  | TOther _ => Throw SyntaxError
  end.

(** [JSON.stringify(j)]: JSON has no [Infinity] or [NaN], so they are
    written as [null]. *)
Definition JSON_stringify (j : json) : text := TJson (json_norm j).

(** Object destructuring [const { mode, variant } = v]: a TypeError on
    [null]. *)
Definition destructure (v : json) : result (option json * option json) :=
  match v with
  | JNull => Throw TypeError
  | _ => Ok (prop v "mode", prop v "variant")
  end.

(** The value part of a cookie, represented by what [decodeURIComponent]
    makes of it: [CText t] decodes to [t]; [CBadUri] is a malformed escape
    sequence.  Values written with [encodeURIComponent] contain no [=], so
    [split('=')[1]] is the whole value. *)
Inductive cookie_value : Type :=
| CText (t : text)
| CBadUri.

Record cookie : Type := mkCookie { c_name : string; c_value : cookie_value }.

Definition LS_KEY : string := "site-theme".

Definition decodeURIComponent (v : cookie_value) : result text :=
  match v with
  | CText t => Ok t
  | CBadUri => Throw URIError
  end.

Definition encodeURIComponent (t : text) : cookie_value := CText t.

(** [cookies.find(c => c.startsWith(`${LS_KEY}=`))], then its value. *)
Definition find_theme_cookie (jar : list cookie) : option cookie_value :=
  match find (fun c => String.eqb (c_name c) LS_KEY) jar with
  | Some c => Some (c_value c)
  | None => None
  end.

(** [document.cookie = `${LS_KEY}=...; path=/; ...`] with cookies enabled:
    the theme cookie is replaced. *)
Definition set_cookie (jar : list cookie) (v : cookie_value) : list cookie :=
  (filter (fun c => negb (String.eqb (c_name c) LS_KEY)) jar
    ++ [mkCookie LS_KEY v])%list.

(** The cookie store of the page.  With cookies disabled, reading
    [document.cookie] gives [""] and assigning it is silently ignored. *)
Inductive cookie_jar : Type :=
| CookiesDisabled
| Cookies (jr : list cookie).

Definition jar_cookies (j : cookie_jar) : list cookie :=
  match j with
  | CookiesDisabled => []
  | Cookies jr => jr
  end.

Definition write_cookie (j : cookie_jar) (v : cookie_value) : cookie_jar :=
  match j with
  | CookiesDisabled => CookiesDisabled
  | Cookies jr => Cookies (set_cookie jr v)
  end.

(** The [localStorage] slot under [LS_KEY]; a blocked storage throws on
    access. *)
Inductive storage : Type :=
| StorageBlocked
| StorageSlot (raw : option text).

Definition getItem (st : storage) : result (option text) :=
  match st with
  | StorageBlocked => Throw SecurityError
  | StorageSlot r => Ok r
  end.

Definition setItem (st : storage) (t : text) : result storage :=
  match st with
  | StorageBlocked => Throw SecurityError
  | StorageSlot _ => Ok (StorageSlot (Some t))
  end.

(** The class list of [document.documentElement]. *)
Definition is_ascii_ws (a : ascii) : bool :=
  let n := nat_of_ascii a in
  Nat.eqb n 9 || Nat.eqb n 10 || Nat.eqb n 12 || Nat.eqb n 13 || Nat.eqb n 32.

Fixpoint has_ws (s : string) : bool :=
  match s with
  | EmptyString => false
  | String a r => is_ascii_ws a || has_ws r
  end.

Definition classList_contains (tok : string) (cl : list string) : bool :=
  existsb (String.eqb tok) cl.

(** [classList.add(tok)]: an empty token is a SyntaxError, a token with
    whitespace an InvalidCharacterError; a present token is not repeated. *)
Definition classList_add (tok : string) (cl : list string) : result (list string) :=
  if String.eqb tok "" then Throw SyntaxError
  else if has_ws tok then Throw InvalidCharacterError
  else if classList_contains tok cl then Ok cl
  else Ok (cl ++ [tok])%list.

Definition is_theme_class (c : string) : bool := String.prefix "theme-" c.

Definition theme_classes (cl : list string) : list string :=
  filter is_theme_class cl.

(** ** The pre-hydration inline script of [app/layout.tsx] *)

(** The cookie branch, lines 29-35: [Some r] is a [return] after adding a
    class, [None] falls through to the storage branch. *)
Definition resolver_cookie_try (v : cookie_value) (root : list string)
  : result (option (list string)) :=
  raw <- decodeURIComponent v ;;
  parsed <- JSON_parse raw ;;
  mv <- destructure parsed ;;
  if truthy (fst mv) && truthy (snd mv) then
    ms <- js_string_u (fst mv) ;;
    vs <- js_string_u (snd mv) ;;
    r <- classList_add ("theme-" ++ ms ++ "-" ++ vs) root ;;
    Ok (Some r)
  else Ok None.

Definition resolver_cookie_step (c : option cookie_value) (root : list string)
  : option (list string) :=
  match c with
  | Some v => try_catch (resolver_cookie_try v root) (fun _ => None)
  | None => None
  end.

(** The storage branch, lines 39-44 (inside its [try]). *)
Definition resolver_storage_try (raw : text) (root : list string)
  : result (option (list string)) :=
  parsed <- JSON_parse raw ;;
  if json_truthy parsed && is_lit (prop parsed "mode") "default" then
    r <- classList_add "theme-default" root ;; Ok (Some r)
  else
    mv <- destructure parsed ;;
    if truthy (fst mv) && truthy (snd mv) then
      ms <- js_string_u (fst mv) ;;
      vs <- js_string_u (snd mv) ;;
      r <- classList_add ("theme-" ++ ms ++ "-" ++ vs) root ;;
      Ok (Some r)
    else Ok None.

Definition resolver_storage_step (raw : option text) (root : list string)
  : option (list string) :=
  match raw with
  | Some t =>
      if text_truthy t then try_catch (resolver_storage_try t root) (fun _ => None)
      else None
  | None => None
  end.

(** The body of the outer [try], lines 25-48; the result is the root class
    list when the script returns. *)
Definition resolver_body (c : option cookie_value) (st : storage) (root : list string)
  : result (list string) :=
  if negb (Nat.eqb (length root) 0) then Ok root
  else
    match resolver_cookie_step c root with
    | Some r => Ok r
    | None =>
        raw <- getItem st ;;
        match resolver_storage_step raw root with
        | Some r => Ok r
        | None => classList_add "theme-default" root
        end
    end.

(** The whole script: the outer [catch] swallows everything.  Every class
    list change is the last step of its path, so a caught exception leaves the
    root as it was. *)
Definition resolver_c (c : option cookie_value) (st : storage) (root : list string)
  : list string :=
  try_catch (resolver_body c st root) (fun _ => root).

Definition resolver (jar : list cookie) (st : storage) (root : list string)
  : list string :=
  resolver_c (find_theme_cookie jar) st root.

(** ** Helpers shared by both controllers (identical in part_001/part_002) *)

Definition DAY_START : Z := 6.
Definition DAY_END : Z := 19.

(** [readStored]: [null] is [JNull]. *)
Definition readStored (st : storage) : json :=
  try_catch
    (raw <- getItem st ;;
     match raw with
     | Some t => if text_truthy t then JSON_parse t else Ok JNull
     | None => Ok JNull
     end)
    (fun _ => JNull).

(** [readCookie], given the result of the [find] over [document.cookie]. *)
Definition readCookie_c (c : option cookie_value) : json :=
  try_catch
    (match c with
     | Some v => val <- decodeURIComponent v ;; JSON_parse val
     | None => Ok JNull
     end)
    (fun _ => JNull).


(** Local-time bucket: [hour >= DAY_START && hour < DAY_END ? "day" : "night"]. *)
Definition hour_mode (hour : Z) : json :=
  if Z.leb DAY_START hour && Z.ltb hour DAY_END then JStr "day" else JStr "night".

(** OS signal: [None] when [window.matchMedia] is missing or throws,
    [Some b] when [matchMedia('(prefers-color-scheme: dark)').matches = b]. *)
Definition os_variant (os_dark : option bool) : json :=
  match os_dark with
  | Some true => JStr "dark"
  | _ => JStr "light"
  end.

(** One page load as the client sees it. *)
Record page : Type := mkPage {
  jar : list cookie;
  store : storage;
  os_dark : option bool;
  hour : Z;
  root0 : list string
}.

(** A rendered control button: its text, [aria-pressed], its [className]
    and [disabled] (always [false] where the source sets none). *)
Record button : Type := mkButton {
  b_label : string;
  b_pressed : bool;
  b_class : string;
  b_disabled : bool
}.

(** ** The default-capable controller (src/unnamed/part_001) *)

Module ThemeProvider.

(** React state [mode], [variant], [isDefault], and the ref [prevRef]. *)
Record state : Type := mkState {
  mode : json;
  variant : json;
  isDefault : bool;
  prevRef : option (json * json)
}.

(** [v && v.mode && v.mode !== 'default' ? v.mode : (fall through)] *)
Definition pick_mode (v : json) : option json :=
  if json_truthy v then
    match prop v "mode" with
    | Some m => if json_truthy m && negb (is_lit (Some m) "default") then Some m else None
    | None => None
    end
  else None.

(** [v && v.variant && v.mode !== 'default' ? v.variant : (fall through)] *)
Definition pick_variant (v : json) : option json :=
  if json_truthy v then
    match prop v "variant" with
    | Some x => if json_truthy x && negb (is_lit (prop v "mode") "default") then Some x else None
    | None => None
    end
  else None.

(** [v && v.mode === 'default'] *)
Definition is_default_record (v : json) : bool :=
  json_truthy v && is_lit (prop v "mode") "default".

(** The [mode] initializer, lines 41-49. *)
Definition init_mode (st : storage) (c : option cookie_value) (hour : Z) : json :=
  match pick_mode (readStored st) with
  | Some m => m
  | None =>
      match pick_mode (readCookie_c c) with
      | Some m => m
      | None => hour_mode hour
      end
  end.

(** The [variant] initializer, lines 51-62. *)
Definition init_variant (st : storage) (c : option cookie_value) (os : option bool) : json :=
  match pick_variant (readStored st) with
  | Some x => x
  | None =>
      match pick_variant (readCookie_c c) with
      | Some x => x
      | None => os_variant os
      end
  end.

(** The [isDefault] initializer, lines 65-74; [root] is the class list the
    pre-hydration script left. *)
Definition init_isDefault (st : storage) (c : option cookie_value) (root : list string) : bool :=
  is_default_record (readStored st)
  || is_default_record (readCookie_c c)
  || classList_contains "theme-default" root.

Definition init (st : storage) (c : option cookie_value) (os : option bool) (hour : Z)
    (root : list string) : state :=
  mkState (init_mode st c hour) (init_variant st c os) (init_isDefault st c root) None.

(** The class [applyClass] adds: ['theme-default'], or the template literal
    [`theme-${mode}-${variant}`], whose conversions can throw. *)
Definition class_of (s : state) : result string :=
  if isDefault s then Ok "theme-default"
  else
    m <- js_string (mode s) ;;
    v <- js_string (variant s) ;;
    Ok ("theme-" ++ m ++ "-" ++ v).

(** [applyClass], lines 81-91: removes every [theme-] class, then builds the
    class and adds it.  Returns the class list afterwards and the exception
    thrown, if any. *)
Definition applyClass (s : state) (root : list string) : list string * option exn :=
  let r := filter (fun c => negb (is_theme_class c)) root in
  match (cls <- class_of s ;; classList_add cls r) with
  | Ok r' => (r', None)
  | Throw e => (r, Some e)
  end.

(** The record the effect serializes, lines 96-104. *)
Definition payload (s : state) : json :=
  if isDefault s then JObj [("mode", JStr "default")]
  else JObj [("mode", mode s); ("variant", variant s)].

(** The persistence part of the effect, lines 95-108: each write in its own
    [try]. *)
Definition persist (s : state) (st : storage) (j : cookie_jar) : storage * cookie_jar :=
  (try_catch (setItem st (JSON_stringify (payload s))) (fun _ => st),
   write_cookie j (encodeURIComponent (JSON_stringify (payload s)))).

(** The whole effect: an exception of [applyClass] escapes it before the
    writes. *)
Definition effect (s : state) (root : list string) (st : storage) (j : cookie_jar)
  : list string * storage * cookie_jar * option exn :=
  let (r, e) := applyClass s root in
  match e with
  | Some _ => (r, st, j, e)
  | None => let (st', j') := persist s st j in (r, st', j', None)
  end.

(** Toggles, lines 115-132. *)
Definition toggleVariant (s : state) : state :=
  if isDefault s then s
  else mkState (mode s)
         (if is_lit (Some (variant s)) "light" then JStr "dark" else JStr "light")
         (isDefault s) (prevRef s).

Definition toggleMode (s : state) : state :=
  if isDefault s then s
  else mkState (if is_lit (Some (mode s)) "day" then JStr "night" else JStr "day")
         (variant s) (isDefault s) (prevRef s).

Definition toggleDefault (s : state) : state :=
  if negb (isDefault s) then
    mkState (mode s) (variant s) true (Some (mode s, variant s))
  else
    match prevRef s with
    | Some (m, v) => mkState m v false None
    | None => mkState (mode s) (variant s) false (prevRef s)
    end.

(** A page load with [app/layout.tsx]: the script runs on the server-rendered
    root, the controller mounts on what it left, and the first effect applies
    the class.  Returns the mounted state, the root after the script and the
    root after the first [applyClass]. *)
Definition load (p : page) : state * list string * list string :=
  let root1 := resolver (jar p) (store p) (root0 p) in
  let s := init (store p) (find_theme_cookie (jar p)) (os_dark p) (hour p) root1 in
  (s, root1, fst (applyClass s root1)).

(** The floating controls, lines 140-169. *)
Definition mode_button (s : state) : button :=
  mkButton (if is_lit (Some (mode s)) "day" then "Day" else "Night")
    (is_lit (Some (mode s)) "day")
    ("theme-btn " ++ (if is_lit (Some (mode s)) "day" then "active" else ""))
    (isDefault s).

Definition variant_button (s : state) : button :=
  mkButton (if is_lit (Some (variant s)) "light" then "Light" else "Dark")
    (is_lit (Some (variant s)) "light")
    ("theme-btn " ++ (if is_lit (Some (variant s)) "light" then "active" else ""))
    (isDefault s).

Definition default_button (s : state) : button :=
  mkButton (if isDefault s then "Undo" else "Default")
    (isDefault s)
    ("theme-btn " ++ (if isDefault s then "active" else "") ++ " theme-default-btn")
    false.

End ThemeProvider.

(** ** The two-state controller (src/unnamed/part_002) *)

Module ThemeProviderTwoState.

Record state : Type := mkState { mode : json; variant : json }.

(** [v && v.mode ? v.mode : (fall through)] *)
Definition pick_field (v : json) (k : string) : option json :=
  if json_truthy v then
    match prop v k with
    | Some m => if json_truthy m then Some m else None
    | None => None
    end
  else None.

Definition init_mode (st : storage) (c : option cookie_value) (hour : Z) : json :=
  match pick_field (readStored st) "mode" with
  | Some m => m
  | None =>
      match pick_field (readCookie_c c) "mode" with
      | Some m => m
      | None => hour_mode hour
      end
  end.

Definition init_variant (st : storage) (c : option cookie_value) (os : option bool) : json :=
  match pick_field (readStored st) "variant" with
  | Some x => x
  | None =>
      match pick_field (readCookie_c c) "variant" with
      | Some x => x
      | None => os_variant os
      end
  end.

Definition init (st : storage) (c : option cookie_value) (os : option bool) (hour : Z) : state :=
  mkState (init_mode st c hour) (init_variant st c os).

(** [`theme-${m}-${v}`], line 67. *)
Definition class_of (s : state) : result string :=
  m <- js_string (mode s) ;;
  v <- js_string (variant s) ;;
  Ok ("theme-" ++ m ++ "-" ++ v).

(** [applyClass(m, v)], lines 66-72: builds the class first, then removes
    every [theme-] class and adds it.  A throwing conversion leaves the root
    untouched. *)
Definition applyClass (s : state) (root : list string) : list string * option exn :=
  match class_of s with
  | Throw e => (root, Some e)
  | Ok cls =>
      let r := filter (fun c => negb (is_theme_class c)) root in
      match classList_add cls r with
      | Ok r' => (r', None)
      | Throw e => (r, Some e)
      end
  end.

Definition toggleVariant (s : state) : state :=
  mkState (mode s) (if is_lit (Some (variant s)) "light" then JStr "dark" else JStr "light").

Definition toggleMode (s : state) : state :=
  mkState (if is_lit (Some (mode s)) "day" then JStr "night" else JStr "day") (variant s).

(** A page load with the script-less layout of part_000: the controller
    mounts on the server-rendered root.  Returns the state and the root after
    the first [applyClass]. *)
Definition load (p : page) : state * list string :=
  let s := init (store p) (find_theme_cookie (jar p)) (os_dark p) (hour p) in
  (s, fst (applyClass s (root0 p))).

(** The record its effect serializes, lines 76-79: always [{mode, variant}]. *)
Definition payload (s : state) : json :=
  JObj [("mode", mode s); ("variant", variant s)].

(** The persistence part of its effect, lines 75-82. *)
Definition persist (s : state) (st : storage) (j : cookie_jar) : storage * cookie_jar :=
  (try_catch (setItem st (JSON_stringify (payload s))) (fun _ => st),
   write_cookie j (encodeURIComponent (JSON_stringify (payload s)))).

(** Its whole effect, lines 65-83: an exception of [applyClass] escapes
    before the writes. *)
Definition effect (s : state) (root : list string) (st : storage) (j : cookie_jar)
  : list string * storage * cookie_jar * option exn :=
  let (r, e) := applyClass s root in
  match e with
  | Some _ => (r, st, j, e)
  | None => let (st', j') := persist s st j in (r, st', j', None)
  end.

(** The floating controls, lines 98-104. *)
Definition mode_button (s : state) : button :=
  mkButton (if is_lit (Some (mode s)) "day" then "Day" else "Night")
    (is_lit (Some (mode s)) "day")
    ("theme-btn " ++ (if is_lit (Some (mode s)) "day" then "active" else ""))
    false.

Definition variant_button (s : state) : button :=
  mkButton (if is_lit (Some (variant s)) "light" then "Light" else "Dark")
    (is_lit (Some (variant s)) "light")
    ("theme-btn " ++ (if is_lit (Some (variant s)) "light" then "active" else ""))
    false.

End ThemeProviderTwoState.

(** ** Vocabulary of the properties *)

(** The records the spec calls valid: [{mode, variant}] over the documented
    enumerations, or the default marker [{mode: "default"}]. *)
Inductive mode_v : Type := Day | Night.
Inductive variant_v : Type := Light | Dark.

Definition mode_str (m : mode_v) : string :=
  match m with Day => "day" | Night => "night" end.

Definition variant_str (v : variant_v) : string :=
  match v with Light => "light" | Dark => "dark" end.

Inductive record_v : Type :=
| RecMV (m : mode_v) (v : variant_v)
| RecDefault.

Definition record_json (r : record_v) : json :=
  match r with
  | RecMV m v => JObj [("mode", JStr (mode_str m)); ("variant", JStr (variant_str v))]
  | RecDefault => JObj [("mode", JStr "default")]
  end.

Definition record_class (r : record_v) : string :=
  match r with
  | RecMV m v => "theme-" ++ mode_str m ++ "-" ++ variant_str v
  | RecDefault => "theme-default"
  end.

(** Stored values whose [mode]/[variant] fields, when truthy, lie in the
    documented enumerations (what the controller itself writes). *)
Definition wf_json (v : json) : bool :=
  let m := prop v "mode" in
  let x := prop v "variant" in
  (negb (truthy m) || is_lit m "day" || is_lit m "night" || is_lit m "default")
  && (negb (truthy x) || is_lit x "light" || is_lit x "dark").

Definition wf_text (t : text) : bool :=
  match t with
  | TJson j => wf_json j
  | TOther _ => true
  end.

Definition wf_cookie (c : option cookie_value) : bool :=
  match c with
  | Some (CText t) => wf_text t
  | _ => true
  end.

Definition wf_storage (st : storage) : bool :=
  match st with
  | StorageSlot (Some t) => wf_text t
  | _ => true
  end.

(** A cookie value that fails to decode or to parse. *)
Definition cookie_malformed (v : cookie_value) : bool :=
  match v with
  | CBadUri => true
  | CText (TOther _) => true
  | CText (TJson _) => false
  end.

(** A state whose mode and variant (and snapshot) are the enumerated ones. *)
Definition wf_mv (m x : json) : bool :=
  (is_lit (Some m) "day" || is_lit (Some m) "night")
  && (is_lit (Some x) "light" || is_lit (Some x) "dark").

Definition wf_state (s : ThemeProvider.state) : bool :=
  wf_mv (ThemeProvider.mode s) (ThemeProvider.variant s)
  && match ThemeProvider.prevRef s with
     | Some (m, x) => wf_mv m x
     | None => true
     end.

(** Controller states reachable by mounting on a page whose stored records
    are well formed, then toggling. *)
Inductive reachable : ThemeProvider.state -> Prop :=
| reach_mount (p : page) :
    wf_storage (store p) = true ->
    wf_cookie (find_theme_cookie (jar p)) = true ->
    reachable (fst (fst (ThemeProvider.load p)))
| reach_mode (s : ThemeProvider.state) :
    reachable s -> reachable (ThemeProvider.toggleMode s)
| reach_variant (s : ThemeProvider.state) :
    reachable s -> reachable (ThemeProvider.toggleVariant s)
| reach_default (s : ThemeProvider.state) :
    reachable s -> reachable (ThemeProvider.toggleDefault s).

(** Reload after the effect ran on state [s] (its writes do not depend on
    the root it ran on): a fresh root, the storage and cookies it left, any
    OS signal and hour.  [reload_in] takes the cookie store as it is;
    [reload] is a page with cookies enabled. *)
Definition reload_in (s : ThemeProvider.state) (st : storage) (j : cookie_jar)
    (os : option bool) (h : Z) : ThemeProvider.state :=
  let '(_, st', j', _) := ThemeProvider.effect s [] st j in
  fst (fst (ThemeProvider.load (mkPage (jar_cookies j') st' os h []))).

Definition reload (s : ThemeProvider.state) (st : storage) (jr : list cookie)
    (os : option bool) (h : Z) : ThemeProvider.state :=
  reload_in s st (Cookies jr) os h.


(** The classes [applyClass] builds from values of the declared types
    [Mode = "day" | "night"] and [Variant = "light" | "dark"] (part_001,
    lines 5-6), and [theme-default]. *)
Definition typed_classes : list string :=
  map record_class [RecMV Day Light; RecMV Day Dark; RecMV Night Light; RecMV Night Dark;
                    RecDefault].

(** A record [{mode: x, variant: y}] as stored. *)
Definition obj_mv (x y : string) : json := JObj [("mode", JStr x); ("variant", JStr y)].

Fixpoint has_dash (s : string) : bool :=
  match s with
  | EmptyString => false
  | String a r => Ascii.eqb a "-"%char || has_dash r
  end.

(** * Properties *)

Lemma find_theme_cookie_set (jr : list cookie) (v : cookie_value) :
  find_theme_cookie (set_cookie jr v) = Some v.
Proof.
  unfold find_theme_cookie, set_cookie.
  induction jr as [|c jr IH]; simpl.
  - reflexivity.
  - destruct (String.eqb (c_name c) LS_KEY) eqn:E; simpl; [exact IH|].
    rewrite E. exact IH.
Qed.

(** An effect whose [applyClass] throws nothing goes on to the writes. *)
Lemma effect_no_throw (s : ThemeProvider.state) (root : list string) (st : storage)
    (j : cookie_jar) :
  snd (ThemeProvider.applyClass s root) = None ->
  ThemeProvider.effect s root st j
    = (fst (ThemeProvider.applyClass s root), fst (ThemeProvider.persist s st j),
       snd (ThemeProvider.persist s st j), None).
Proof.
  unfold ThemeProvider.effect.
  destruct (ThemeProvider.applyClass s root) as [r e]; simpl; intros ->.
  destruct (ThemeProvider.persist s st j); reflexivity.
Qed.


(** ** C1 *)

(** C1 (code bug): with valid [{mode, variant}] records in both the cookie
    and a readable storage slot, on a fresh root the pre-hydration script
    consults the cookie first and applies the cookie record's class, but both
    controllers' initializers consult storage first: they mount with the
    storage record's mode and variant (the default-capable one with
    [isDefault] false) and their first [applyClass] replaces the script's
    class with the storage record's class.  The cookie does not decide the
    controllers' state. *)
Theorem C1_resolution_order (mc ms : mode_v) (vc vs : variant_v) (jr : list cookie)
    (os : option bool) (h : Z)
    (Hc : find_theme_cookie jr = Some (CText (TJson (record_json (RecMV mc vc))))) :
  let p := mkPage jr (StorageSlot (Some (TJson (record_json (RecMV ms vs))))) os h [] in
  ThemeProvider.load p
    = (ThemeProvider.mkState (JStr (mode_str ms)) (JStr (variant_str vs)) false None,
       [record_class (RecMV mc vc)], [record_class (RecMV ms vs)])
  /\ ThemeProviderTwoState.load p
    = (ThemeProviderTwoState.mkState (JStr (mode_str ms)) (JStr (variant_str vs)),
       [record_class (RecMV ms vs)]).
Proof.
  unfold ThemeProvider.load, ThemeProviderTwoState.load, resolver; simpl.
  rewrite Hc.
  destruct mc, ms, vc, vs; vm_compute; split; reflexivity.
Qed.

Lemma C1_resolution_order_witness :
  find_theme_cookie [mkCookie LS_KEY (CText (TJson (record_json (RecMV Night Dark))))]
    = Some (CText (TJson (record_json (RecMV Night Dark))))
  /\ ThemeProvider.load
       (mkPage [mkCookie LS_KEY (CText (TJson (record_json (RecMV Night Dark))))]
          (StorageSlot (Some (TJson (record_json (RecMV Day Light))))) None 12 [])
     = (ThemeProvider.mkState (JStr "day") (JStr "light") false None,
        ["theme-night-dark"], ["theme-day-light"]).
Proof.
  split; [reflexivity|].
  exact (proj1 (C1_resolution_order Night Day Dark Light
                  [mkCookie LS_KEY (CText (TJson (record_json (RecMV Night Dark))))]
                  None 12 eq_refl)).
Defined.

(** ** C2 *)

(** C2 (counterexample): no cookie, an empty storage slot, the OS reporting
    dark and local hour 3.  The pre-hydration script of [app/layout.tsx]
    applies [theme-default], not [theme-night-dark]; the controller then
    reads that class, mounts with [isDefault] true and keeps [theme-default]. *)
Lemma C2_empty_sources_give_default :
  let '(s, r1, r2) := ThemeProvider.load (mkPage [] (StorageSlot None) (Some true) 3 []) in
  r1 = ["theme-default"] /\ ThemeProvider.isDefault s = true /\ r2 = ["theme-default"].
Proof. vm_compute. repeat split. Qed.

(** C2 (amended): with no theme cookie and an empty storage slot, the
    pre-hydration script applies [theme-default] and the default-capable
    controller mounts in default mode keeping it; the OS/time derivation
    (day iff the hour is in [6, 19); dark iff the OS reports dark, else light)
    is what both controllers' mode/variant initializers compute, and the class
    the two-state controller applies: [theme-night-dark] for OS dark at hour 3,
    [theme-day-light] for no OS signal at hour 10. *)
Theorem C2_fallback_chain (jr : list cookie) (os : option bool) (h : Z)
    (Hc : find_theme_cookie jr = None) :
  ThemeProvider.load (mkPage jr (StorageSlot None) os h [])
    = (ThemeProvider.mkState (hour_mode h) (os_variant os) true None,
       ["theme-default"], ["theme-default"])
  /\ fst (ThemeProviderTwoState.load (mkPage jr (StorageSlot None) os h []))
    = ThemeProviderTwoState.mkState (hour_mode h) (os_variant os)
  /\ (hour_mode h = JStr "day" <-> (6 <= h < 19)%Z)
  /\ (hour_mode h = JStr "night" <-> ~ (6 <= h < 19)%Z)
  /\ snd (ThemeProviderTwoState.load (mkPage jr (StorageSlot None) (Some true) 3 []))
    = ["theme-night-dark"]
  /\ snd (ThemeProviderTwoState.load (mkPage jr (StorageSlot None) None 10 []))
    = ["theme-day-light"].
Proof.
  unfold ThemeProvider.load, ThemeProviderTwoState.load, resolver.
  simpl. rewrite Hc.
  split; [reflexivity|]. split; [reflexivity|].
  split; [|split; [|split; reflexivity]];
    unfold hour_mode, DAY_START, DAY_END;
    destruct (Z.leb_spec 6 h), (Z.ltb_spec h 19); simpl;
    split; intro E; try reflexivity; try discriminate E; lia.
Qed.

Lemma C2_fallback_chain_witness :
  find_theme_cookie [mkCookie "lang" CBadUri] = None
  /\ snd (ThemeProviderTwoState.load (mkPage [mkCookie "lang" CBadUri] (StorageSlot None) (Some true) 3 []))
     = ["theme-night-dark"].
Proof.
  split; [reflexivity|].
  exact (proj1 (proj2 (proj2 (proj2 (proj2
    (C2_fallback_chain [mkCookie "lang" CBadUri] (Some true) 3 eq_refl)))))).
Defined.

(** ** Class list lemmas *)

Lemma classList_add_nil (tok : string) (r : list string) :
  classList_add tok [] = Ok r -> r = [tok].
Proof.
  unfold classList_add, classList_contains; simpl.
  destruct (String.eqb tok ""), (has_ws tok); simpl; congruence.
Qed.

(** The last step of a script path: the class list is [classList.add] on the
    empty root. *)
Ltac add_nil_case :=
  match goal with
  | |- context [classList_add ?t []] =>
      let E := fresh "E" in
      destruct (classList_add t []) as [r'|e] eqn:E; simpl; [|discriminate];
      let H := fresh "H" in
      intro H; injection H as <-; eexists; exact (classList_add_nil _ _ E)
  | |- _ => simpl; let H := fresh "H" in intro H; injection H as <-; eexists; reflexivity
  end.

Lemma resolver_cookie_step_nil (c : option cookie_value) (r : list string) :
  resolver_cookie_step c [] = Some r -> exists tok, r = [tok].
Proof.
  unfold resolver_cookie_step. destruct c as [v|]; [|discriminate].
  unfold resolver_cookie_try, bind.
  destruct (decodeURIComponent v) as [t|e]; simpl; [|discriminate].
  destruct (JSON_parse t) as [j|e]; simpl; [|discriminate].
  destruct (destructure j) as [mv|e]; simpl; [|discriminate].
  destruct (truthy (fst mv) && truthy (snd mv)); simpl; [|discriminate].
  destruct (js_string_u (fst mv)) as [ms|e]; simpl; [|discriminate].
  destruct (js_string_u (snd mv)) as [vs|e]; simpl; [|discriminate].
  add_nil_case.
Qed.

Lemma resolver_storage_step_nil (raw : option text) (r : list string) :
  resolver_storage_step raw [] = Some r -> exists tok, r = [tok].
Proof.
  unfold resolver_storage_step. destruct raw as [t|]; [|discriminate].
  destruct (text_truthy t); [|discriminate].
  unfold resolver_storage_try, bind.
  destruct (JSON_parse t) as [j|e]; simpl; [|discriminate].
  destruct (json_truthy j && is_lit (prop j "mode") "default").
  - add_nil_case.
  - destruct (destructure j) as [mv|e]; simpl; [|discriminate].
    destruct (truthy (fst mv) && truthy (snd mv)); simpl; [|discriminate].
    destruct (js_string_u (fst mv)) as [ms|e]; simpl; [|discriminate].
    destruct (js_string_u (snd mv)) as [vs|e]; simpl; [|discriminate].
    add_nil_case.
Qed.

(** The pre-hydration script removes nothing, leaves a classed root alone and
    puts at most one class on an empty one. *)
Lemma resolver_at_most_one (c : option cookie_value) (st : storage) (root : list string) :
  (root <> [] -> resolver_c c st root = root)
  /\ (root = [] -> resolver_c c st root = [] \/ exists tok, resolver_c c st root = [tok]).
Proof.
  split; intro Hr.
  - unfold resolver_c, resolver_body.
    destruct root as [|x root']; [congruence|]. reflexivity.
  - subst root. unfold resolver_c, resolver_body. simpl.
    destruct (resolver_cookie_step c []) as [r|] eqn:Ec.
    + right. exact (resolver_cookie_step_nil _ _ Ec).
    + destruct (getItem st) as [raw|e]; simpl; [|left; reflexivity].
      destruct (resolver_storage_step raw []) as [r|] eqn:Es.
      * right. exact (resolver_storage_step_nil _ _ Es).
      * unfold classList_add; simpl. right. eexists. reflexivity.
Qed.

Lemma filter_non_theme_contains (cls : string) (r : list string) :
  is_theme_class cls = true ->
  classList_contains cls (filter (fun c => negb (is_theme_class c)) r) = false.
Proof.
  intro Ht. unfold classList_contains.
  induction r as [|x r IH]; simpl; [reflexivity|].
  destruct (is_theme_class x) eqn:Ex; simpl; [exact IH|].
  destruct (String.eqb_spec cls x) as [->|_]; [congruence|exact IH].
Qed.

Lemma theme_classes_filter (r : list string) :
  theme_classes (filter (fun c => negb (is_theme_class c)) r) = [].
Proof.
  unfold theme_classes. induction r as [|x r IH]; simpl; [reflexivity|].
  destruct (is_theme_class x) eqn:Ex; simpl; [exact IH|].
  rewrite Ex. exact IH.
Qed.

(** Removing every theme class and adding a valid theme token leaves exactly
    that token among the theme classes. *)
Lemma swap_theme_class (cls : string) (r : list string) :
  is_theme_class cls = true -> String.eqb cls "" = false -> has_ws cls = false ->
  classList_add cls (filter (fun c => negb (is_theme_class c)) r)
    = Ok (filter (fun c => negb (is_theme_class c)) r ++ [cls])%list
  /\ theme_classes (filter (fun c => negb (is_theme_class c)) r ++ [cls])%list = [cls].
Proof.
  intros Ht He Hw. split.
  - unfold classList_add. rewrite He, Hw, filter_non_theme_contains by exact Ht.
    reflexivity.
  - unfold theme_classes. rewrite filter_app.
    fold (theme_classes (filter (fun c => negb (is_theme_class c)) r)).
    rewrite theme_classes_filter. simpl. rewrite Ht. reflexivity.
Qed.

Lemma prefix_app (s t : string) : String.prefix s (s ++ t) = true.
Proof.
  induction s as [|a s IH]; simpl.
  - destruct t; reflexivity.
  - destruct (ascii_dec a a) as [_|n]; [exact IH|congruence].
Qed.

Lemma class_of_theme (s : ThemeProvider.state) (cls : string) :
  ThemeProvider.class_of s = Ok cls ->
  is_theme_class cls = true /\ String.eqb cls "" = false.
Proof.
  unfold ThemeProvider.class_of, is_theme_class.
  destruct (ThemeProvider.isDefault s).
  - intro H. injection H as <-. split; reflexivity.
  - destruct (js_string (ThemeProvider.mode s)) as [m|e]; simpl; [|discriminate].
    destruct (js_string (ThemeProvider.variant s)) as [v|e]; simpl; [|discriminate].
    intro H. injection H as <-. split; [apply (prefix_app "theme-")|reflexivity].
Qed.

Lemma class_of_theme_two (s : ThemeProviderTwoState.state) (cls : string) :
  ThemeProviderTwoState.class_of s = Ok cls ->
  is_theme_class cls = true /\ String.eqb cls "" = false.
Proof.
  unfold ThemeProviderTwoState.class_of, is_theme_class.
  destruct (js_string (ThemeProviderTwoState.mode s)) as [m|e]; simpl; [|discriminate].
  destruct (js_string (ThemeProviderTwoState.variant s)) as [v|e]; simpl; [|discriminate].
  intro H. injection H as <-. split; [apply (prefix_app "theme-")|reflexivity].
Qed.

(** C3 (code bug): a fresh root, no theme cookie, and a [localStorage]
    that throws on access (site data blocked).  [getItem] at line 37 is
    outside the inner [try], so the outer [catch] ends the script before the
    [theme-default] fallback of line 48: the root carries no theme class at
    all until the controller's first effect applies one.  With a readable
    empty slot the fallback is reached. *)
Theorem C3_blocked_storage_leaves_root_bare :
  let '(_, r1, r2) := ThemeProvider.load (mkPage [] StorageBlocked (Some true) 3 []) in
  r1 = [] /\ theme_classes r1 = [] /\ r2 = ["theme-night-dark"]
  /\ resolver [] (StorageSlot None) [] = ["theme-default"].
Proof. vm_compute. repeat split. Qed.

(** ** C4 *)

Lemma wf_readStored (st : storage) :
  wf_storage st = true -> wf_json (readStored st) = true.
Proof.
  destruct st as [|[[j|s]|]]; simpl; intro H; try exact H; try reflexivity.
  unfold readStored; simpl. destruct (negb (String.eqb s "")); reflexivity.
Qed.

Lemma wf_readCookie (c : option cookie_value) :
  wf_cookie c = true -> wf_json (readCookie_c c) = true.
Proof.
  destruct c as [[[j|s]|]|]; simpl; intro H; try exact H; reflexivity.
Qed.

(** Reads a string equality out of a test [is_lit]. *)
Lemma is_lit_true (u : option json) (lit : string) :
  is_lit u lit = true -> u = Some (JStr lit).
Proof.
  destruct u as [[| | |s| |]|]; simpl; try discriminate.
  intro H. apply String.eqb_eq in H. subst. reflexivity.
Qed.

(** Case analysis of a stored field against the literals it is tested with. *)
Ltac field_cases :=
  repeat match goal with
  | H : context [String.eqb ?s ?l] |- _ =>
      destruct (String.eqb_spec s l); subst; simpl in *
  | b : bool |- _ => destruct b; simpl in *
  end;
  try discriminate.

Lemma pick_mode_wf (v m : json) :
  wf_json v = true -> ThemeProvider.pick_mode v = Some m ->
  m = JStr "day" \/ m = JStr "night".
Proof.
  unfold wf_json, ThemeProvider.pick_mode. intros Hw Hp.
  destruct (json_truthy v); [|discriminate].
  destruct (prop v "mode") as [m'|]; [|discriminate].
  apply andb_prop in Hw as [Hw _].
  destruct m' as [|b|n|s|xs|fs]; simpl in *; field_cases;
    injection Hp as <-; auto.
Qed.

Lemma pick_variant_wf (v x : json) :
  wf_json v = true -> ThemeProvider.pick_variant v = Some x ->
  x = JStr "light" \/ x = JStr "dark".
Proof.
  unfold wf_json, ThemeProvider.pick_variant. intros Hw Hp.
  destruct (json_truthy v); [|discriminate].
  destruct (prop v "variant") as [x'|]; [|discriminate].
  apply andb_prop in Hw as [_ Hw].
  destruct (negb (is_lit (prop v "mode") "default")); [|destruct (json_truthy x'); discriminate].
  destruct x' as [|b|n|s|xs|fs]; simpl in *; field_cases;
    injection Hp as <-; auto.
Qed.

Lemma wf_mv_intro (m x : json) :
  (m = JStr "day" \/ m = JStr "night") -> (x = JStr "light" \/ x = JStr "dark") ->
  wf_mv m x = true.
Proof. intros [->| ->] [->| ->]; reflexivity. Qed.

Lemma wf_mv_elim (m x : json) :
  wf_mv m x = true ->
  (m = JStr "day" \/ m = JStr "night") /\ (x = JStr "light" \/ x = JStr "dark").
Proof.
  unfold wf_mv, is_lit. intro H.
  destruct m as [| | |sm| |]; destruct x as [| | |sx| |]; simpl in H;
    try discriminate; try (rewrite andb_false_r in H; discriminate).
  field_cases; auto.
Qed.

Lemma reachable_wf (s : ThemeProvider.state) : reachable s -> wf_state s = true.
Proof.
  induction 1 as [p Hs Hc|s _ IH|s _ IH|s _ IH].
  - unfold ThemeProvider.load, wf_state. simpl. rewrite andb_true_r.
    apply wf_mv_intro.
    + unfold ThemeProvider.init_mode.
      destruct (ThemeProvider.pick_mode (readStored (store p))) as [m|] eqn:E1.
      { exact (pick_mode_wf _ _ (wf_readStored _ Hs) E1). }
      destruct (ThemeProvider.pick_mode (readCookie_c (find_theme_cookie (jar p)))) as [m|] eqn:E2.
      { exact (pick_mode_wf _ _ (wf_readCookie _ Hc) E2). }
      unfold hour_mode. destruct (_ && _); auto.
    + unfold ThemeProvider.init_variant.
      destruct (ThemeProvider.pick_variant (readStored (store p))) as [x|] eqn:E1.
      { exact (pick_variant_wf _ _ (wf_readStored _ Hs) E1). }
      destruct (ThemeProvider.pick_variant (readCookie_c (find_theme_cookie (jar p)))) as [x|] eqn:E2.
      { exact (pick_variant_wf _ _ (wf_readCookie _ Hc) E2). }
      unfold os_variant. destruct (os_dark p) as [[|]|]; auto.
  - unfold wf_state in *. destruct s as [m x d pr]; simpl in *.
    apply andb_prop in IH as [Hmv Hp].
    destruct (wf_mv_elim _ _ Hmv) as [_ Hx].
    unfold ThemeProvider.toggleMode; destruct d; simpl; [rewrite Hmv, Hp; reflexivity|].
    rewrite Hp, andb_true_r. apply wf_mv_intro; [|exact Hx].
    match goal with |- context [if ?b then _ else _] => destruct b end; auto.
  - unfold wf_state in *. destruct s as [m x d pr]; simpl in *.
    apply andb_prop in IH as [Hmv Hp].
    destruct (wf_mv_elim _ _ Hmv) as [Hm _].
    unfold ThemeProvider.toggleVariant; destruct d; simpl; [rewrite Hmv, Hp; reflexivity|].
    rewrite Hp, andb_true_r. apply wf_mv_intro; [exact Hm|].
    match goal with |- context [if ?b then _ else _] => destruct b end; auto.
  - unfold wf_state in *. destruct s as [m x d pr]; simpl in *.
    apply andb_prop in IH as [Hmv Hp].
    unfold ThemeProvider.toggleDefault; destruct d; simpl.
    + destruct pr as [[m' x']|]; simpl; [rewrite Hp; reflexivity|rewrite Hmv; reflexivity].
    + rewrite Hmv. reflexivity.
Qed.

(** C4: every state reachable by mounting on well-formed stored records and
    toggling survives the effect's writes and a reload from them alone (fresh
    root, any OS signal and hour, storage readable or blocked): a non-default
    state comes back with the same mode and variant and [isDefault] false, a
    default one comes back with [isDefault] true. *)
Theorem C4_reload_round_trip (s : ThemeProvider.state) (st : storage) (jr : list cookie)
    (os : option bool) (h : Z) (Hr : reachable s) :
  if ThemeProvider.isDefault s then ThemeProvider.isDefault (reload s st jr os h) = true
  else ThemeProvider.mode (reload s st jr os h) = ThemeProvider.mode s
       /\ ThemeProvider.variant (reload s st jr os h) = ThemeProvider.variant s
       /\ ThemeProvider.isDefault (reload s st jr os h) = false.
Proof.
  apply reachable_wf in Hr. unfold wf_state in Hr.
  apply andb_prop in Hr as [Hmv _].
  destruct (wf_mv_elim _ _ Hmv) as [Hm Hx].
  destruct s as [m x d pr]; simpl in *.
  unfold reload, reload_in.
  destruct d; destruct Hm as [-> | ->]; destruct Hx as [-> | ->];
    (rewrite effect_no_throw by (vm_compute; reflexivity));
    unfold ThemeProvider.persist, write_cookie, ThemeProvider.load, resolver; simpl;
    rewrite find_theme_cookie_set;
    destruct st as [|raw]; vm_compute; auto.
Qed.

Lemma C4_reload_round_trip_witness :
  ThemeProvider.variant
    (reload (ThemeProvider.toggleVariant
               (fst (fst (ThemeProvider.load
                  (mkPage [] (StorageSlot (Some (TJson (record_json (RecMV Night Light)))))
                     None 9 [])))))
            (StorageSlot None) [] (Some false) 9)
  = JStr "dark".
Proof.
  pose proof (C4_reload_round_trip
    (ThemeProvider.toggleVariant
       (fst (fst (ThemeProvider.load
          (mkPage [] (StorageSlot (Some (TJson (record_json (RecMV Night Light))))) None 9 [])))))
    (StorageSlot None) [] (Some false) 9
    (reach_variant _ (reach_mount
       (mkPage [] (StorageSlot (Some (TJson (record_json (RecMV Night Light))))) None 9 [])
       eq_refl eq_refl))) as H.
  vm_compute in H |- *. destruct H as [_ [H _]]. exact H.
Defined.

(** ** C5 *)

(** C5: from a non-default state, [toggleDefault] snapshots [{mode, variant}]
    into [prevRef] and sets [isDefault]; a second [toggleDefault] restores the
    snapshot exactly, clears it and clears [isDefault].  Leaving default mode
    without a snapshot keeps mode and variant.  In particular [{night, dark}]
    comes back as [{night, dark}]. *)
Theorem C5_default_undo (s : ThemeProvider.state)
    (H : ThemeProvider.isDefault s = false) :
  let s1 := ThemeProvider.toggleDefault s in
  let s2 := ThemeProvider.toggleDefault s1 in
  ThemeProvider.isDefault s1 = true
  /\ ThemeProvider.prevRef s1 = Some (ThemeProvider.mode s, ThemeProvider.variant s)
  /\ ThemeProvider.mode s1 = ThemeProvider.mode s
  /\ ThemeProvider.variant s1 = ThemeProvider.variant s
  /\ ThemeProvider.mode s2 = ThemeProvider.mode s
  /\ ThemeProvider.variant s2 = ThemeProvider.variant s
  /\ ThemeProvider.isDefault s2 = false
  /\ (forall t : ThemeProvider.state,
        ThemeProvider.isDefault t = true -> ThemeProvider.prevRef t = None ->
        ThemeProvider.toggleDefault t
          = ThemeProvider.mkState (ThemeProvider.mode t) (ThemeProvider.variant t) false None)
  /\ (forall pr : option (json * json),
        let t := ThemeProvider.toggleDefault
                   (ThemeProvider.toggleDefault
                      (ThemeProvider.mkState (JStr "night") (JStr "dark") false pr)) in
        ThemeProvider.mode t = JStr "night" /\ ThemeProvider.variant t = JStr "dark").
Proof.
  destruct s as [m x d pr]; simpl in H; subst d.
  unfold ThemeProvider.toggleDefault; simpl.
  repeat split; try reflexivity.
  intros [m' x' d' pr'] Hd Hp; simpl in *; subst. reflexivity.
Qed.

Lemma C5_default_undo_witness :
  ThemeProvider.mode
    (ThemeProvider.toggleDefault
       (ThemeProvider.toggleDefault (ThemeProvider.mkState (JStr "night") (JStr "dark") false None)))
  = JStr "night".
Proof.
  exact (proj1 (proj2 (proj2 (proj2 (proj2
           (C5_default_undo (ThemeProvider.mkState (JStr "night") (JStr "dark") false None)
              eq_refl)))))).
Defined.

(** ** C6 *)

(** C6: while [isDefault] holds, [toggleMode] and [toggleVariant] leave the
    whole state unchanged. *)
Theorem C6_toggles_locked_in_default (s : ThemeProvider.state)
    (H : ThemeProvider.isDefault s = true) :
  ThemeProvider.toggleMode s = s /\ ThemeProvider.toggleVariant s = s.
Proof.
  unfold ThemeProvider.toggleMode, ThemeProvider.toggleVariant. rewrite H. split; reflexivity.
Qed.

Lemma C6_toggles_locked_in_default_witness :
  ThemeProvider.toggleMode (ThemeProvider.mkState (JStr "day") (JStr "light") true None)
  = ThemeProvider.mkState (JStr "day") (JStr "light") true None.
Proof.
  exact (proj1 (C6_toggles_locked_in_default
                  (ThemeProvider.mkState (JStr "day") (JStr "light") true None) eq_refl)).
Defined.

(** ** C7 *)

(** C7 (the script at a failing input): the cookie holds the default marker
    [{mode: "default"}], storage holds [{day, dark}], the root is fresh.  The
    cookie branch has no [mode === 'default'] test (the storage branch has
    one), so it falls through, and the script applies the storage record's
    [theme-day-dark] instead of [theme-default]. *)
Theorem C7_cookie_default_marker_falls_through :
  resolver_cookie_step (Some (CText (TJson (record_json RecDefault)))) [] = None
  /\ resolver_storage_step (Some (TJson (record_json RecDefault))) [] = Some ["theme-default"]
  /\ resolver [mkCookie LS_KEY (CText (TJson (record_json RecDefault)))]
       (StorageSlot (Some (TJson (record_json (RecMV Day Dark))))) []
     = ["theme-day-dark"].
Proof. vm_compute. repeat split. Qed.

(** ** C8 *)

(** C8 (counterexample): no cookie, an empty storage slot; mounting on the
    root the pre-hydration script left ([theme-default]) gives [isDefault]
    true, mounting on a bare root gives false: the script's class decides the
    initial state. *)
Lemma C8_root_class_decides_isDefault :
  ThemeProvider.isDefault (ThemeProvider.init (StorageSlot None) None None 10 ["theme-default"]) = true
  /\ ThemeProvider.isDefault (ThemeProvider.init (StorageSlot None) None None 10 []) = false
  /\ resolver [] (StorageSlot None) [] = ["theme-default"].
Proof. vm_compute. repeat split. Qed.

(** C8 (amended): the controller's initial mode and variant depend on
    storage, cookie and OS/time only, never on the root's classes; the
    initial [isDefault] is true iff the storage or cookie record is the
    default marker, or the root already carries [theme-default]. *)
Theorem C8_initial_state_sources (st : storage) (c : option cookie_value)
    (os : option bool) (h : Z) (r1 r2 : list string) :
  ThemeProvider.mode (ThemeProvider.init st c os h r1)
    = ThemeProvider.mode (ThemeProvider.init st c os h r2)
  /\ ThemeProvider.variant (ThemeProvider.init st c os h r1)
    = ThemeProvider.variant (ThemeProvider.init st c os h r2)
  /\ ThemeProvider.isDefault (ThemeProvider.init st c os h r1)
    = ThemeProvider.is_default_record (readStored st)
      || ThemeProvider.is_default_record (readCookie_c c)
      || classList_contains "theme-default" r1.
Proof. repeat split. Qed.

(** ** C9 *)

Lemma cookie_step_malformed (v : cookie_value) (root : list string) :
  cookie_malformed v = true -> resolver_cookie_step (Some v) root = None.
Proof. destruct v as [[j|s]|]; simpl; intro H; [discriminate|reflexivity|reflexivity]. Qed.

Lemma readCookie_malformed (v : cookie_value) :
  cookie_malformed v = true -> readCookie_c (Some v) = readCookie_c None.
Proof. destruct v as [[j|s]|]; simpl; intro H; [discriminate|reflexivity|reflexivity]. Qed.

Lemma storage_step_malformed (s : string) (root : list string) :
  resolver_storage_step (Some (TOther s)) root = None.
Proof. unfold resolver_storage_step. destruct (text_truthy (TOther s)); reflexivity. Qed.

Lemma readStored_malformed (s : string) :
  readStored (StorageSlot (Some (TOther s))) = readStored (StorageSlot None).
Proof. unfold readStored; simpl. destruct (negb (String.eqb s "")); reflexivity. Qed.

(** C9: a cookie value that fails to decode or to parse, and a stored string
    that fails to parse, are treated exactly as an absent source: [readCookie]
    and [readStored] return the same [null] (they are total: every exception
    is caught inside), the body of the pre-hydration script returns the same
    result, exception or not, as with the source absent, and both controllers
    mount in the same state. *)
Theorem C9_malformed_is_absent (v : cookie_value) (Hv : cookie_malformed v = true)
    (s : string) (st : storage) (c : option cookie_value) (root : list string)
    (os : option bool) (h : Z) :
  readCookie_c (Some v) = readCookie_c None
  /\ resolver_body (Some v) st root = resolver_body None st root
  /\ ThemeProvider.init st (Some v) os h root = ThemeProvider.init st None os h root
  /\ ThemeProviderTwoState.init st (Some v) os h = ThemeProviderTwoState.init st None os h
  /\ readStored (StorageSlot (Some (TOther s))) = readStored (StorageSlot None)
  /\ resolver_body c (StorageSlot (Some (TOther s))) root = resolver_body c (StorageSlot None) root
  /\ ThemeProvider.init (StorageSlot (Some (TOther s))) c os h root
     = ThemeProvider.init (StorageSlot None) c os h root
  /\ ThemeProviderTwoState.init (StorageSlot (Some (TOther s))) c os h
     = ThemeProviderTwoState.init (StorageSlot None) c os h.
Proof.
  pose proof (readCookie_malformed v Hv) as Hc.
  pose proof (readStored_malformed s) as Hs.
  split; [exact Hc|]. split.
  { unfold resolver_body. rewrite (cookie_step_malformed v root Hv). reflexivity. }
  split.
  { unfold ThemeProvider.init, ThemeProvider.init_mode, ThemeProvider.init_variant,
      ThemeProvider.init_isDefault. rewrite Hc. reflexivity. }
  split.
  { unfold ThemeProviderTwoState.init, ThemeProviderTwoState.init_mode,
      ThemeProviderTwoState.init_variant. rewrite Hc. reflexivity. }
  split; [exact Hs|]. split.
  { unfold resolver_body. destruct (negb (Nat.eqb (length root) 0)); [reflexivity|].
    destruct (resolver_cookie_step c root); [reflexivity|].
    unfold bind, getItem. rewrite storage_step_malformed. reflexivity. }
  split.
  { unfold ThemeProvider.init, ThemeProvider.init_mode, ThemeProvider.init_variant,
      ThemeProvider.init_isDefault. rewrite Hs. reflexivity. }
  { unfold ThemeProviderTwoState.init, ThemeProviderTwoState.init_mode,
      ThemeProviderTwoState.init_variant. rewrite Hs. reflexivity. }
Qed.

Lemma C9_malformed_is_absent_witness :
  resolver_body (Some CBadUri) (StorageSlot (Some (TOther "{oops"))) []
  = resolver_body None (StorageSlot (Some (TOther "{oops"))) [].
Proof.
  exact (proj1 (proj2 (C9_malformed_is_absent CBadUri eq_refl "{oops"
                         (StorageSlot (Some (TOther "{oops"))) None [] None 10))).
Defined.

(** ** C10 *)

Lemma has_ws_app (a b : string) : has_ws (a ++ b) = has_ws a || has_ws b.
Proof.
  induction a as [|c a IH]; simpl; [reflexivity|].
  rewrite IH. apply orb_assoc.
Qed.

Lemma has_dash_app (a b : string) : has_dash (a ++ b) = has_dash a || has_dash b.
Proof.
  induction a as [|c a IH]; simpl; [reflexivity|].
  rewrite IH. apply orb_assoc.
Qed.

Lemma default_not_dashed (x y : string) : String.eqb "default" (x ++ "-" ++ y) = false.
Proof.
  apply String.eqb_neq. intro E.
  assert (D : has_dash "default" = has_dash (x ++ "-" ++ y)) by (rewrite E; reflexivity).
  rewrite !has_dash_app in D. simpl in D.
  rewrite orb_true_r in D. discriminate.
Qed.


Lemma add_theme_token_nil (x y : string) :
  has_ws x = false -> has_ws y = false ->
  classList_add ("theme-" ++ x ++ "-" ++ y) [] = Ok ["theme-" ++ x ++ "-" ++ y].
Proof.
  intros Hx Hy. unfold classList_add.
  rewrite !has_ws_app, Hx, Hy. reflexivity.
Qed.


(** Evaluates a script path or an initializer on a record [{mode: x,
    variant: y}], using the facts known about [x] and [y]. *)
Ltac c10_step Hx Hy Hd Ha Hdd :=
  repeat (cbn -[classList_add];
          rewrite ?Hx, ?Hy, ?Hd, ?Ha;
          try match goal with
              | |- context [String.eqb "default" ?t] =>
                  replace (String.eqb "default" t) with false by (symmetry; exact Hdd)
              end);
  try reflexivity.



(** * Further properties of the code *)

(** ** The pre-hydration script *)

(** X1: running the script a second time on the root it left changes
    nothing. *)
Theorem resolver_idempotent (jr : list cookie) (st : storage) (root : list string) :
  resolver jr st (resolver jr st root) = resolver jr st root.
Proof.
  unfold resolver.
  destruct (resolver_at_most_one (find_theme_cookie jr) st root) as [Hne He].
  destruct root as [|x root'].
  - destruct (He eq_refl) as [E|[tok E]]; rewrite E; [exact E|].
    apply (proj1 (resolver_at_most_one _ _ _)). discriminate.
  - rewrite (Hne ltac:(discriminate)).
    apply (proj1 (resolver_at_most_one _ _ _)). discriminate.
Qed.

(** X2: a cookie record whose [mode] and [variant] are non-empty strings
    without whitespace decides the class on a fresh root before storage is
    read: the result is the same for every storage, a blocked one included. *)
Theorem resolver_cookie_short_circuits (x y : string) (st : storage)
    (Hx : x <> "") (Hy : y <> "") (Hwx : has_ws x = false) (Hwy : has_ws y = false) :
  resolver_c (Some (CText (TJson (obj_mv x y)))) st [] = ["theme-" ++ x ++ "-" ++ y].
Proof.
  apply String.eqb_neq in Hx, Hy.
  pose proof (add_theme_token_nil x y Hwx Hwy) as Ha.
  pose proof (default_not_dashed x y) as Hdd.
  cbn -[classList_add] in Ha.
  unfold resolver_c, resolver_body. c10_step Hx Hy Hx Ha Hdd.
Qed.

Lemma resolver_cookie_short_circuits_witness :
  resolver_c (Some (CText (TJson (obj_mv "night" "dark")))) StorageBlocked []
  = ["theme-night-dark"].
Proof.
  exact (resolver_cookie_short_circuits "night" "dark" StorageBlocked
           ltac:(discriminate) ltac:(discriminate) eq_refl eq_refl).
Defined.

(** X3: when the cookie step yields nothing and storage access throws, the
    outer [catch] ends the script with no class at all on a fresh root: the
    final [theme-default] fallback is not reached. *)
Theorem resolver_blocked_storage_no_class (c : option cookie_value)
    (Hc : resolver_cookie_step c [] = None) :
  resolver_c c StorageBlocked [] = [].
Proof.
  unfold resolver_c, resolver_body. simpl. rewrite Hc. reflexivity.
Qed.

Lemma resolver_blocked_storage_no_class_witness :
  resolver_c (Some (CText (TJson (record_json RecDefault)))) StorageBlocked [] = [].
Proof.
  exact (resolver_blocked_storage_no_class (Some (CText (TJson (record_json RecDefault)))) eq_refl).
Defined.

(** Script paths on the empty root add one theme class. *)
Ltac add_theme_case :=
  match goal with
  | |- context [classList_add ?t []] =>
      let E := fresh "E" in
      destruct (classList_add t []) as [r'|e] eqn:E; simpl; [|discriminate];
      let H := fresh "H" in
      intro H; injection H as <-; eexists;
      split; [exact (classList_add_nil _ _ E)
             |unfold is_theme_class; first [apply (prefix_app "theme-") | reflexivity]]
  | |- _ =>
      simpl; let H := fresh "H" in
      intro H; injection H as <-; eexists; split; reflexivity
  end.

Lemma resolver_cookie_step_theme (c : option cookie_value) (r : list string) :
  resolver_cookie_step c [] = Some r -> exists tok, r = [tok] /\ is_theme_class tok = true.
Proof.
  unfold resolver_cookie_step. destruct c as [v|]; [|discriminate].
  unfold resolver_cookie_try, bind.
  destruct (decodeURIComponent v) as [t|e]; simpl; [|discriminate].
  destruct (JSON_parse t) as [j|e]; simpl; [|discriminate].
  destruct (destructure j) as [mv|e]; simpl; [|discriminate].
  destruct (truthy (fst mv) && truthy (snd mv)); simpl; [|discriminate].
  destruct (js_string_u (fst mv)) as [ms|e]; simpl; [|discriminate].
  destruct (js_string_u (snd mv)) as [vs|e]; simpl; [|discriminate].
  add_theme_case.
Qed.

Lemma resolver_storage_step_theme (raw : option text) (r : list string) :
  resolver_storage_step raw [] = Some r -> exists tok, r = [tok] /\ is_theme_class tok = true.
Proof.
  unfold resolver_storage_step. destruct raw as [t|]; [|discriminate].
  destruct (text_truthy t); [|discriminate].
  unfold resolver_storage_try, bind.
  destruct (JSON_parse t) as [j|e]; simpl; [|discriminate].
  destruct (json_truthy j && is_lit (prop j "mode") "default").
  - add_theme_case.
  - destruct (destructure j) as [mv|e]; simpl; [|discriminate].
    destruct (truthy (fst mv) && truthy (snd mv)); simpl; [|discriminate].
    destruct (js_string_u (fst mv)) as [ms|e]; simpl; [|discriminate].
    destruct (js_string_u (snd mv)) as [vs|e]; simpl; [|discriminate].
    add_theme_case.
Qed.

(** X4: every class on the root after the script was there before or is a
    [theme-] class: the script never adds any other class. *)
Theorem resolver_adds_only_theme (jr : list cookie) (st : storage) (root : list string)
    (tok : string) :
  In tok (resolver jr st root) -> In tok root \/ is_theme_class tok = true.
Proof.
  unfold resolver. destruct root as [|x root'].
  - unfold resolver_c, resolver_body. simpl.
    destruct (resolver_cookie_step (find_theme_cookie jr) []) as [r|] eqn:Ec.
    + destruct (resolver_cookie_step_theme _ _ Ec) as [t [-> Ht]].
      intros [<-|[]]. right. exact Ht.
    + destruct (getItem st) as [raw|e]; simpl; [|intros []].
      destruct (resolver_storage_step raw []) as [r|] eqn:Es.
      * destruct (resolver_storage_step_theme _ _ Es) as [t [-> Ht]].
        intros [<-|[]]. right. exact Ht.
      * intros [<-|[]]. right. reflexivity.
  - intro H. rewrite (proj1 (resolver_at_most_one (find_theme_cookie jr) st (x :: root'))
      ltac:(discriminate)) in H.
    left. exact H.
Qed.

(** ** The controllers' class swap and effect *)

Lemma filter_idem {A : Type} (f : A -> bool) (r : list A) : filter f (filter f r) = filter f r.
Proof.
  induction r as [|x r IH]; simpl; [reflexivity|].
  destruct (f x) eqn:E; simpl; rewrite ?E, IH; reflexivity.
Qed.

Lemma filter_non_theme_add (cls : string) (r : list string) :
  is_theme_class cls = true ->
  filter (fun c => negb (is_theme_class c))
    (filter (fun c => negb (is_theme_class c)) r ++ [cls])%list
  = filter (fun c => negb (is_theme_class c)) r.
Proof.
  intro Ht. rewrite filter_app, filter_idem. simpl. rewrite Ht. apply app_nil_r.
Qed.

(** [applyClass] in closed form.  Default-capable controller: the theme
    classes go first, then the conversion or [add] may throw, leaving the
    root without theme class; otherwise the class is appended. *)
Lemma applyClass_eq (s : ThemeProvider.state) (root : list string) :
  ThemeProvider.applyClass s root =
  match ThemeProvider.class_of s with
  | Throw e => (filter (fun c => negb (is_theme_class c)) root, Some e)
  | Ok cls =>
      if has_ws cls
      then (filter (fun c => negb (is_theme_class c)) root, Some InvalidCharacterError)
      else ((filter (fun c => negb (is_theme_class c)) root ++ [cls])%list, None)
  end.
Proof.
  unfold ThemeProvider.applyClass.
  destruct (ThemeProvider.class_of s) as [cls|e] eqn:Ec; cbn [bind]; [|reflexivity].
  destruct (class_of_theme s cls Ec) as [Ht He].
  destruct (has_ws cls) eqn:Hw.
  - unfold classList_add. rewrite He, Hw. reflexivity.
  - rewrite (proj1 (swap_theme_class _ root Ht He Hw)). reflexivity.
Qed.

(** Two-state controller: the class is built first, so a throwing
    conversion leaves the root untouched. *)
Lemma applyClass_two_eq (s : ThemeProviderTwoState.state) (root : list string) :
  ThemeProviderTwoState.applyClass s root =
  match ThemeProviderTwoState.class_of s with
  | Throw e => (root, Some e)
  | Ok cls =>
      if has_ws cls
      then (filter (fun c => negb (is_theme_class c)) root, Some InvalidCharacterError)
      else ((filter (fun c => negb (is_theme_class c)) root ++ [cls])%list, None)
  end.
Proof.
  unfold ThemeProviderTwoState.applyClass.
  destruct (ThemeProviderTwoState.class_of s) as [cls|e] eqn:Ec; [|reflexivity].
  destruct (class_of_theme_two s cls Ec) as [Ht He].
  destruct (has_ws cls) eqn:Hw.
  - unfold classList_add. rewrite He, Hw. reflexivity.
  - rewrite (proj1 (swap_theme_class _ root Ht He Hw)). reflexivity.
Qed.

(** X5: [applyClass] of either controller keeps every class of the root that
    does not start with [theme-], in order, whether or not it throws. *)
Theorem applyClass_keeps_other_classes :
  (forall (s : ThemeProvider.state) (root : list string),
     filter (fun c => negb (is_theme_class c)) (fst (ThemeProvider.applyClass s root))
     = filter (fun c => negb (is_theme_class c)) root)
  /\ (forall (s : ThemeProviderTwoState.state) (root : list string),
     filter (fun c => negb (is_theme_class c)) (fst (ThemeProviderTwoState.applyClass s root))
     = filter (fun c => negb (is_theme_class c)) root).
Proof.
  split; intros s root.
  - rewrite applyClass_eq.
    destruct (ThemeProvider.class_of s) as [cls|e] eqn:Ec; [destruct (has_ws cls)|]; cbn [fst].
    + apply filter_idem.
    + apply filter_non_theme_add. exact (proj1 (class_of_theme s cls Ec)).
    + apply filter_idem.
  - rewrite applyClass_two_eq.
    destruct (ThemeProviderTwoState.class_of s) as [cls|e] eqn:Ec; [destruct (has_ws cls)|];
      cbn [fst].
    + apply filter_idem.
    + apply filter_non_theme_add. exact (proj1 (class_of_theme_two s cls Ec)).
    + reflexivity.
Qed.

(** X6: running [applyClass] again on the root it left (a re-run of the
    effect with the same state) gives the same root and the same outcome. *)
Theorem applyClass_idempotent :
  (forall (s : ThemeProvider.state) (root : list string),
     ThemeProvider.applyClass s (fst (ThemeProvider.applyClass s root))
     = ThemeProvider.applyClass s root)
  /\ (forall (s : ThemeProviderTwoState.state) (root : list string),
     ThemeProviderTwoState.applyClass s (fst (ThemeProviderTwoState.applyClass s root))
     = ThemeProviderTwoState.applyClass s root).
Proof.
  split; intros s root.
  - rewrite !applyClass_eq.
    destruct (ThemeProvider.class_of s) as [cls|e] eqn:Ec; [destruct (has_ws cls)|]; cbn [fst].
    + rewrite filter_idem. reflexivity.
    + rewrite filter_non_theme_add by exact (proj1 (class_of_theme s cls Ec)). reflexivity.
    + rewrite filter_idem. reflexivity.
  - rewrite !applyClass_two_eq.
    destruct (ThemeProviderTwoState.class_of s) as [cls|e] eqn:Ec; [destruct (has_ws cls)|];
      cbn [fst].
    + rewrite filter_idem. reflexivity.
    + rewrite filter_non_theme_add by exact (proj1 (class_of_theme_two s cls Ec)). reflexivity.
    + reflexivity.
Qed.

(** X7: the effect of either controller in closed form.  When building the
    class throws (a [mode] or [variant] object with a [toString] key gives a
    TypeError) or [add] rejects it (whitespace gives InvalidCharacterError),
    the exception escapes the effect before the writes, and storage and
    cookies are left as they were.  The default-capable controller has then
    already removed the root's theme classes; the two-state one builds the
    class before removing them, so a conversion error leaves its root as it
    was.  Otherwise the class is applied and both writes happen. *)
Theorem effect_throw_skips_writes :
  (forall (s : ThemeProvider.state) (root : list string) (st : storage) (j : cookie_jar),
     ThemeProvider.effect s root st j =
     match ThemeProvider.class_of s with
     | Throw e => (filter (fun c => negb (is_theme_class c)) root, st, j, Some e)
     | Ok cls =>
         if has_ws cls
         then (filter (fun c => negb (is_theme_class c)) root, st, j, Some InvalidCharacterError)
         else ((filter (fun c => negb (is_theme_class c)) root ++ [cls])%list,
               fst (ThemeProvider.persist s st j), snd (ThemeProvider.persist s st j), None)
     end)
  /\ (forall (s : ThemeProviderTwoState.state) (root : list string) (st : storage)
        (j : cookie_jar),
     ThemeProviderTwoState.effect s root st j =
     match ThemeProviderTwoState.class_of s with
     | Throw e => (root, st, j, Some e)
     | Ok cls =>
         if has_ws cls
         then (filter (fun c => negb (is_theme_class c)) root, st, j, Some InvalidCharacterError)
         else ((filter (fun c => negb (is_theme_class c)) root ++ [cls])%list,
               fst (ThemeProviderTwoState.persist s st j),
               snd (ThemeProviderTwoState.persist s st j), None)
     end)
  /\ ThemeProvider.class_of
       (ThemeProvider.mkState (JObj [("toString", JNum "1")]) (JStr "dark") false None)
     = Throw TypeError
  /\ ThemeProviderTwoState.class_of
       (ThemeProviderTwoState.mkState (JObj [("toString", JNum "1")]) (JStr "dark"))
     = Throw TypeError.
Proof.
  split; [|split; [|split; reflexivity]]; intros s root st j.
  - unfold ThemeProvider.effect. rewrite applyClass_eq.
    destruct (ThemeProvider.class_of s) as [cls|e]; [|reflexivity].
    destruct (has_ws cls); [reflexivity|].
    destruct (ThemeProvider.persist s st j); reflexivity.
  - unfold ThemeProviderTwoState.effect. rewrite applyClass_two_eq.
    destruct (ThemeProviderTwoState.class_of s) as [cls|e]; [|reflexivity].
    destruct (has_ws cls); [reflexivity|].
    destruct (ThemeProviderTwoState.persist s st j); reflexivity.
Qed.

(** ** Persistence *)







(** ** Toggles and controls *)

(** X9: the two toggles commute, each leaves the other field alone, and
    neither touches [isDefault] or [prevRef] (both controllers). *)
Theorem toggles_commute :
  (forall s : ThemeProvider.state,
     ThemeProvider.toggleMode (ThemeProvider.toggleVariant s)
     = ThemeProvider.toggleVariant (ThemeProvider.toggleMode s)
     /\ ThemeProvider.variant (ThemeProvider.toggleMode s) = ThemeProvider.variant s
     /\ ThemeProvider.mode (ThemeProvider.toggleVariant s) = ThemeProvider.mode s
     /\ ThemeProvider.isDefault (ThemeProvider.toggleMode s) = ThemeProvider.isDefault s
     /\ ThemeProvider.isDefault (ThemeProvider.toggleVariant s) = ThemeProvider.isDefault s
     /\ ThemeProvider.prevRef (ThemeProvider.toggleMode s) = ThemeProvider.prevRef s
     /\ ThemeProvider.prevRef (ThemeProvider.toggleVariant s) = ThemeProvider.prevRef s)
  /\ (forall s : ThemeProviderTwoState.state,
     ThemeProviderTwoState.toggleMode (ThemeProviderTwoState.toggleVariant s)
     = ThemeProviderTwoState.toggleVariant (ThemeProviderTwoState.toggleMode s)
     /\ ThemeProviderTwoState.variant (ThemeProviderTwoState.toggleMode s)
        = ThemeProviderTwoState.variant s
     /\ ThemeProviderTwoState.mode (ThemeProviderTwoState.toggleVariant s)
        = ThemeProviderTwoState.mode s).
Proof.
  split.
  - intros [m x [|] pr]; repeat split.
  - intros [m x]; repeat split.
Qed.

(** X10: on the documented values each toggle is its own inverse: two
    clicks on the same button restore the state (both controllers). *)
Theorem toggles_involutive :
  (forall s : ThemeProvider.state,
     (ThemeProvider.mode s = JStr "day" \/ ThemeProvider.mode s = JStr "night") ->
     ThemeProvider.toggleMode (ThemeProvider.toggleMode s) = s)
  /\ (forall s : ThemeProvider.state,
     (ThemeProvider.variant s = JStr "light" \/ ThemeProvider.variant s = JStr "dark") ->
     ThemeProvider.toggleVariant (ThemeProvider.toggleVariant s) = s)
  /\ (forall s : ThemeProviderTwoState.state,
     (ThemeProviderTwoState.mode s = JStr "day" \/ ThemeProviderTwoState.mode s = JStr "night") ->
     ThemeProviderTwoState.toggleMode (ThemeProviderTwoState.toggleMode s) = s)
  /\ (forall s : ThemeProviderTwoState.state,
     (ThemeProviderTwoState.variant s = JStr "light"
      \/ ThemeProviderTwoState.variant s = JStr "dark") ->
     ThemeProviderTwoState.toggleVariant (ThemeProviderTwoState.toggleVariant s) = s).
Proof.
  split; [|split; [|split]].
  - intros [m x [|] pr]; simpl; intros [->| ->]; reflexivity.
  - intros [m x [|] pr]; simpl; intros [->| ->]; reflexivity.
  - intros [m x]; simpl; intros [->| ->]; reflexivity.
  - intros [m x]; simpl; intros [->| ->]; reflexivity.
Qed.

Lemma toggles_involutive_witness :
  ThemeProvider.toggleMode (ThemeProvider.toggleMode
     (ThemeProvider.mkState (JStr "night") (JStr "light") false None))
  = ThemeProvider.mkState (JStr "night") (JStr "light") false None
  /\ ThemeProviderTwoState.toggleVariant (ThemeProviderTwoState.toggleVariant
     (ThemeProviderTwoState.mkState (JStr "day") (JStr "dark")))
  = ThemeProviderTwoState.mkState (JStr "day") (JStr "dark").
Proof.
  split.
  - exact (proj1 toggles_involutive
             (ThemeProvider.mkState (JStr "night") (JStr "light") false None)
             (or_intror eq_refl)).
  - exact (proj2 (proj2 (proj2 toggles_involutive))
             (ThemeProviderTwoState.mkState (JStr "day") (JStr "dark"))
             (or_intror eq_refl)).
Defined.

(** X11: whatever value a field held (a stored one outside the
    enumerations included), one click of its toggle brings it to a
    documented value, after which the button alternates: three clicks act as
    one (both controllers). *)
Theorem toggles_normalise :
  (forall s : ThemeProvider.state,
     ThemeProvider.toggleMode (ThemeProvider.toggleMode (ThemeProvider.toggleMode s))
     = ThemeProvider.toggleMode s
     /\ ThemeProvider.toggleVariant (ThemeProvider.toggleVariant (ThemeProvider.toggleVariant s))
        = ThemeProvider.toggleVariant s
     /\ (ThemeProvider.isDefault s = true
         \/ ((ThemeProvider.mode (ThemeProvider.toggleMode s) = JStr "day"
              \/ ThemeProvider.mode (ThemeProvider.toggleMode s) = JStr "night")
             /\ (ThemeProvider.variant (ThemeProvider.toggleVariant s) = JStr "light"
                 \/ ThemeProvider.variant (ThemeProvider.toggleVariant s) = JStr "dark"))))
  /\ (forall s : ThemeProviderTwoState.state,
     ThemeProviderTwoState.toggleMode
       (ThemeProviderTwoState.toggleMode (ThemeProviderTwoState.toggleMode s))
     = ThemeProviderTwoState.toggleMode s
     /\ ThemeProviderTwoState.toggleVariant
          (ThemeProviderTwoState.toggleVariant (ThemeProviderTwoState.toggleVariant s))
        = ThemeProviderTwoState.toggleVariant s
     /\ (ThemeProviderTwoState.mode (ThemeProviderTwoState.toggleMode s) = JStr "day"
         \/ ThemeProviderTwoState.mode (ThemeProviderTwoState.toggleMode s) = JStr "night")
     /\ (ThemeProviderTwoState.variant (ThemeProviderTwoState.toggleVariant s) = JStr "light"
         \/ ThemeProviderTwoState.variant (ThemeProviderTwoState.toggleVariant s) = JStr "dark")).
Proof.
  split.
  - intros [m x [|] pr]; [exact (conj eq_refl (conj eq_refl (or_introl eq_refl)))|].
    unfold ThemeProvider.toggleMode, ThemeProvider.toggleVariant; cbn -[is_lit].
    destruct (is_lit (Some m) "day"), (is_lit (Some x) "light");
      (split; [reflexivity|split; [reflexivity|right]]);
      split; first [left; reflexivity | right; reflexivity].
  - intros [m x].
    unfold ThemeProviderTwoState.toggleMode, ThemeProviderTwoState.toggleVariant;
      cbn -[is_lit].
    destruct (is_lit (Some m) "day"), (is_lit (Some x) "light");
      (split; [reflexivity|split; [reflexivity|]]);
      split; first [left; reflexivity | right; reflexivity].
Qed.

(** X12: a click on an enabled Day/Night or Light/Dark button flips its
    [aria-pressed], its [active] class and its label (both controllers); a click on the default
    button flips its own [aria-pressed] and label and switches the
    [disabled] flag of the two other buttons. *)
Theorem clicks_flip_buttons :
  (forall s : ThemeProvider.state,
     ThemeProvider.isDefault s = false ->
     b_pressed (ThemeProvider.mode_button (ThemeProvider.toggleMode s))
     = negb (b_pressed (ThemeProvider.mode_button s))
     /\ b_label (ThemeProvider.mode_button (ThemeProvider.toggleMode s))
        <> b_label (ThemeProvider.mode_button s)
     /\ b_class (ThemeProvider.mode_button (ThemeProvider.toggleMode s))
        <> b_class (ThemeProvider.mode_button s)
     /\ b_pressed (ThemeProvider.variant_button (ThemeProvider.toggleVariant s))
        = negb (b_pressed (ThemeProvider.variant_button s))
     /\ b_label (ThemeProvider.variant_button (ThemeProvider.toggleVariant s))
        <> b_label (ThemeProvider.variant_button s)
     /\ b_class (ThemeProvider.variant_button (ThemeProvider.toggleVariant s))
        <> b_class (ThemeProvider.variant_button s))
  /\ (forall s : ThemeProvider.state,
     b_pressed (ThemeProvider.default_button (ThemeProvider.toggleDefault s))
     = negb (b_pressed (ThemeProvider.default_button s))
     /\ b_label (ThemeProvider.default_button (ThemeProvider.toggleDefault s))
        <> b_label (ThemeProvider.default_button s)
     /\ b_disabled (ThemeProvider.mode_button (ThemeProvider.toggleDefault s))
        = negb (b_disabled (ThemeProvider.mode_button s))
     /\ b_disabled (ThemeProvider.variant_button (ThemeProvider.toggleDefault s))
        = negb (b_disabled (ThemeProvider.variant_button s)))
  /\ (forall s : ThemeProviderTwoState.state,
     b_pressed (ThemeProviderTwoState.mode_button (ThemeProviderTwoState.toggleMode s))
     = negb (b_pressed (ThemeProviderTwoState.mode_button s))
     /\ b_label (ThemeProviderTwoState.mode_button (ThemeProviderTwoState.toggleMode s))
        <> b_label (ThemeProviderTwoState.mode_button s)
     /\ b_class (ThemeProviderTwoState.mode_button (ThemeProviderTwoState.toggleMode s))
        <> b_class (ThemeProviderTwoState.mode_button s)
     /\ b_pressed (ThemeProviderTwoState.variant_button (ThemeProviderTwoState.toggleVariant s))
        = negb (b_pressed (ThemeProviderTwoState.variant_button s))
     /\ b_label (ThemeProviderTwoState.variant_button (ThemeProviderTwoState.toggleVariant s))
        <> b_label (ThemeProviderTwoState.variant_button s)
     /\ b_class (ThemeProviderTwoState.variant_button (ThemeProviderTwoState.toggleVariant s))
        <> b_class (ThemeProviderTwoState.variant_button s)).
Proof.
  split; [|split].
  - intros [m x [|] pr] H; [discriminate|].
    unfold ThemeProvider.toggleMode, ThemeProvider.toggleVariant,
      ThemeProvider.mode_button, ThemeProvider.variant_button; cbn -[is_lit].
    destruct (is_lit (Some m) "day"), (is_lit (Some x) "light");
      repeat split; discriminate.
  - intros [m x [|] [[m' x']|]]; repeat split; discriminate.
  - intros [m x].
    unfold ThemeProviderTwoState.toggleMode, ThemeProviderTwoState.toggleVariant,
      ThemeProviderTwoState.mode_button, ThemeProviderTwoState.variant_button;
      cbn -[is_lit].
    destruct (is_lit (Some m) "day"), (is_lit (Some x) "light");
      repeat split; discriminate.
Qed.

Lemma clicks_flip_buttons_witness :
  b_label (ThemeProvider.mode_button (ThemeProvider.toggleMode
     (ThemeProvider.mkState (JStr "dusk") (JStr "light") false None)))
  <> b_label (ThemeProvider.mode_button
     (ThemeProvider.mkState (JStr "dusk") (JStr "light") false None)).
Proof.
  exact (proj1 (proj2 (proj1 clicks_flip_buttons
           (ThemeProvider.mkState (JStr "dusk") (JStr "light") false None) eq_refl))).
Defined.

(** ** Mount and reload *)

Lemma pick_mode_some (v m : json) :
  ThemeProvider.pick_mode v = Some m ->
  json_truthy m = true /\ is_lit (Some m) "default" = false.
Proof.
  unfold ThemeProvider.pick_mode. destruct (json_truthy v); [|discriminate].
  destruct (prop v "mode") as [m'|]; [|discriminate].
  destruct (json_truthy m') eqn:E1; cbn [andb]; [|discriminate].
  destruct (is_lit (Some m') "default") eqn:E2; cbn [negb]; [discriminate|].
  intro H. injection H as <-. auto.
Qed.

Lemma pick_variant_some (v x : json) :
  ThemeProvider.pick_variant v = Some x -> json_truthy x = true.
Proof.
  unfold ThemeProvider.pick_variant. destruct (json_truthy v); [|discriminate].
  destruct (prop v "variant") as [x'|]; [|discriminate].
  destruct (json_truthy x') eqn:E1; cbn [andb]; [|discriminate].
  destruct (negb _); [|discriminate]. intro H. injection H as <-. exact E1.
Qed.

Lemma pick_field_some (v m : json) (k : string) :
  ThemeProviderTwoState.pick_field v k = Some m -> json_truthy m = true.
Proof.
  unfold ThemeProviderTwoState.pick_field. destruct (json_truthy v); [|discriminate].
  destruct (prop v k) as [m'|]; [|discriminate].
  destruct (json_truthy m') eqn:E1; [|discriminate]. intro H. injection H as <-. exact E1.
Qed.

(** X13: whatever the stores hold, the mounted [mode] and [variant] of both
    controllers are truthy values, and the default-capable controller never
    takes the string ["default"] as its [mode]. *)
Theorem init_fields_truthy :
  (forall (st : storage) (c : option cookie_value) (os : option bool) (h : Z)
     (root : list string),
     json_truthy (ThemeProvider.mode (ThemeProvider.init st c os h root)) = true
     /\ ThemeProvider.mode (ThemeProvider.init st c os h root) <> JStr "default"
     /\ json_truthy (ThemeProvider.variant (ThemeProvider.init st c os h root)) = true)
  /\ (forall (st : storage) (c : option cookie_value) (os : option bool) (h : Z),
     json_truthy (ThemeProviderTwoState.mode (ThemeProviderTwoState.init st c os h)) = true
     /\ json_truthy (ThemeProviderTwoState.variant (ThemeProviderTwoState.init st c os h))
        = true).
Proof.
  assert (Hm : forall h, json_truthy (hour_mode h) = true /\ hour_mode h <> JStr "default").
  { intro h. unfold hour_mode. destruct (_ && _); split; try reflexivity; discriminate. }
  assert (Hv : forall os, json_truthy (os_variant os) = true).
  { intros [[|]|]; reflexivity. }
  assert (Nd : forall m, is_lit (Some m) "default" = false -> m <> JStr "default").
  { intros m E ->. discriminate E. }
  split.
  - intros st c os h root. cbn [ThemeProvider.init ThemeProvider.mode ThemeProvider.variant].
    unfold ThemeProvider.init_mode, ThemeProvider.init_variant.
    destruct (ThemeProvider.pick_mode (readStored st)) as [m|] eqn:E1;
      [destruct (pick_mode_some _ _ E1) as [T D]; split; [exact T|split; [exact (Nd _ D)|]]|].
    2: destruct (ThemeProvider.pick_mode (readCookie_c c)) as [m|] eqn:E2;
      [destruct (pick_mode_some _ _ E2) as [T D]; split; [exact T|split; [exact (Nd _ D)|]]
      |split; [apply Hm|split; [apply Hm|]]].
    all: destruct (ThemeProvider.pick_variant (readStored st)) as [x|] eqn:E3;
      [exact (pick_variant_some _ _ E3)|].
    all: destruct (ThemeProvider.pick_variant (readCookie_c c)) as [x|] eqn:E4;
      [exact (pick_variant_some _ _ E4)|apply Hv].
  - intros st c os h. cbn [ThemeProviderTwoState.init ThemeProviderTwoState.mode
      ThemeProviderTwoState.variant].
    unfold ThemeProviderTwoState.init_mode, ThemeProviderTwoState.init_variant. split.
    + destruct (ThemeProviderTwoState.pick_field (readStored st) "mode") as [m|] eqn:E1;
        [exact (pick_field_some _ _ _ E1)|].
      destruct (ThemeProviderTwoState.pick_field (readCookie_c c) "mode") as [m|] eqn:E2;
        [exact (pick_field_some _ _ _ E2)|apply Hm].
    + destruct (ThemeProviderTwoState.pick_field (readStored st) "variant") as [x|] eqn:E1;
        [exact (pick_field_some _ _ _ E1)|].
      destruct (ThemeProviderTwoState.pick_field (readCookie_c c) "variant") as [x|] eqn:E2;
        [exact (pick_field_some _ _ _ E2)|apply Hv].
Qed.



(** X15: for every state reachable by mounting on well-formed stored records
    and toggling, building the class succeeds and [applyClass] never throws,
    leaves exactly the state's class among the theme classes, and that class
    is one built from values of the declared [Mode] and [Variant] types, or
    [theme-default]. *)
Theorem reachable_class_in_contract (s : ThemeProvider.state) (root : list string)
    (Hr : reachable s) :
  exists cls,
    ThemeProvider.class_of s = Ok cls
    /\ ThemeProvider.applyClass s root
       = ((filter (fun c => negb (is_theme_class c)) root ++ [cls])%list, None)
    /\ theme_classes (fst (ThemeProvider.applyClass s root)) = [cls]
    /\ In cls typed_classes.
Proof.
  apply reachable_wf in Hr. unfold wf_state in Hr.
  apply andb_prop in Hr as [Hmv _].
  destruct (wf_mv_elim _ _ Hmv) as [Hm Hx].
  assert (Hw : exists cls, ThemeProvider.class_of s = Ok cls /\ has_ws cls = false
                           /\ In cls typed_classes).
  { destruct s as [m x [|] pr]; simpl in Hm, Hx.
    - exists "theme-default". split; [reflexivity|split; [reflexivity|]].
      unfold typed_classes; simpl; repeat (first [left; reflexivity | right]).
    - destruct Hm as [-> | ->], Hx as [-> | ->]; eexists;
        (split; [reflexivity|split; [reflexivity|]]);
        unfold typed_classes; simpl; repeat (first [left; reflexivity | right]). }
  destruct Hw as [cls [Hc [Hw Hin]]].
  destruct (class_of_theme s cls Hc) as [Ht He].
  exists cls. rewrite applyClass_eq, Hc, Hw.
  split; [reflexivity|split; [reflexivity|split; [|exact Hin]]].
  exact (proj2 (swap_theme_class _ root Ht He Hw)).
Qed.

Lemma reachable_class_in_contract_witness :
  ThemeProvider.applyClass
    (fst (fst (ThemeProvider.load
       (mkPage [] (StorageSlot (Some (TJson (record_json (RecMV Night Dark))))) None 9 [])))) []
  = (["theme-night-dark"], None).
Proof.
  destruct (reachable_class_in_contract _ []
    (reach_mount
       (mkPage [] (StorageSlot (Some (TJson (record_json (RecMV Night Dark))))) None 9 [])
       eq_refl eq_refl)) as [cls [Hc [Ha _]]].
  rewrite Ha. vm_compute in Hc. injection Hc as <-. reflexivity.
Defined.



Lemma resolver_adds_only_theme_witness :
  In "theme-day-dark"
     (resolver [mkCookie LS_KEY (CText (TJson (record_json (RecMV Day Dark))))]
        (StorageSlot None) [])
  /\ (In "theme-day-dark" [] \/ is_theme_class "theme-day-dark" = true).
Proof.
  split; [vm_compute; left; reflexivity|].
  exact (resolver_adds_only_theme
           [mkCookie LS_KEY (CText (TJson (record_json (RecMV Day Dark))))]
           (StorageSlot None) [] "theme-day-dark" (or_introl eq_refl)).
Defined.
